(** * components/babysitter.py: the babysitter stack fragment

    A shallow embedding of [emit_configuration], the function that adds
    the babysitter parameters and resources to the shared CloudFormation
    template, and the properties of the descriptors it registers. *)

From Stdlib Require Import ZArith.
From stdpp Require Import base option list strings gmap.

Local Open Scope string_scope.

(** ** Template values

    The objects the module builds are troposphere objects: a class, an
    optional logical title and the keyword arguments given to the
    constructor.  Keyword arguments are kept in the order they are
    written. *)

Inductive AWSClass :=
  | troposphere_Parameter
  | sqs_Queue
  | sns_Topic
  | sns_Subscription
  | cloudwatch_Alarm
  | cloudwatch_MetricDimension
  | iam_Role
  | iam_Policy
  | iam_InstanceProfile
  | ec2_VPC
  | ec2_Subnet
  | ec2_SecurityGroupRule
  | ec2_SecurityGroup
  | ec2_BlockDeviceMapping
  | ec2_EBSBlockDevice
  | autoscaling_LaunchConfiguration
  | autoscaling_NotificationConfiguration
  | autoscaling_AutoScalingGroup
  | Tags.

#[warnings="-register-all"] Inductive Value :=
  | VStr (s : string)
  | VInt (n : Z)
  | VBool (b : bool)
  | VList (vs : list Value)
  | VDict (items : list (string * Value))
  | VRef (logical : string)
  | VGetAtt (logical attr : string)
  | FindInMap (mapname : string) (top second : Value)
  | Base64 (v : Value)
  | VProp (c : AWSClass) (kw : list (string * Value)).

(** A titled object: a parameter or a resource. *)
Record AWSObject := mkObj {
  cls : AWSClass;
  title : string;
  kwargs : list (string * Value)
}.

(** [Ref(obj)] and [GetAtt(obj, attr)] keep the title of the object. *)
Definition Ref (o : AWSObject) : Value := VRef (title o).
Definition GetAtt (o : AWSObject) (attr : string) : Value := VGetAtt (title o) attr.

(** Keyword argument [k] of a constructor call. *)
Fixpoint kwarg (k : string) (kw : list (string * Value)) : option Value :=
  match kw with
  | [] => None
  | (k', v) :: kw' => if decide (k' = k) then Some v else kwarg k kw'
  end.

Definition prop (k : string) (o : AWSObject) : option Value := kwarg k (kwargs o).



(** Every string written in a value. *)
Fixpoint strings (v : Value) : list string :=
  match v with
  | VStr s => [s]
  | VInt _ | VBool _ => []
  | VList vs => (fix go (l : list Value) : list string :=
                   match l with [] => [] | x :: l' => (strings x ++ go l')%list end) vs
  | VDict items | VProp _ items =>
      (fix go (l : list (string * Value)) : list string :=
         match l with [] => [] | (_, x) :: l' => (strings x ++ go l')%list end) items
  | VRef t => [t]
  | VGetAtt t a => [t; a]
  | FindInMap m a b => m :: (strings a ++ strings b)%list
  | Base64 x => strings x
  end.

(** The title of an object and every string in its keyword arguments. *)
Definition object_strings (o : AWSObject) : list string :=
  title o :: strings (VDict (kwargs o)).

(** ** Python helpers *)

(** [sep.join(parts)] *)
Definition join (sep : string) (parts : list string) : string :=
  String.concat sep parts.





(** ** The [config] module

    [config] is imported, not defined, by the component: its constants and
    helpers are the fields of a record. *)

Record Config := mkConfig {
  CLOUDNAME : string;
  CLOUDENV : string;
  DEFAULT_ROUTE : string;
  USE_PRIVATE_SUBNETS : bool;
  ASSUME_ROLE_POLICY : Value;
  vpcs : list AWSObject;
  keyname : AWSObject;
  Amis_EBS : Z;                      (* int(cfn.Amis.EBS) *)
  SubnetTypes_PLATFORM : Z;
  usable_instances : list string;
  sanitize_id : string → string;
  (* [None] when rendering fails: no such file, or a formatting error *)
  load_template : string → gmap string string → option string;
  get_asg_azs : list Value;
  get_vpc_subnets : AWSObject → Z → list AWSObject
}.

(** [troposphere.autoscaling.EC2_INSTANCE_TERMINATE] *)
Definition EC2_INSTANCE_TERMINATE : string := "autoscaling:EC2_INSTANCE_TERMINATE".

(** ** State and exceptions

    The template is shared and mutated in place; rendering a template file
    is an effect as well, recorded call by call.  An exception leaves the
    state as it was when it was raised. *)

Record World := mkWorld {
  parameters : list AWSObject;
  resources : list AWSObject;
  rendered : list (string * gmap string string)
}.

Inductive Exn :=
  | IndexError
  | TemplateError (name : string)
  | JSONDecodeError (text : string).

Inductive Outcome (A : Type) :=
  | Return (a : A)
  | Raise (e : Exn).
Arguments Return {A} a.
Arguments Raise {A} e.

Definition M (A : Type) : Type := World → Outcome A * World.

#[export] Instance M_ret : MRet M := λ A a w, (Return a, w).
#[export] Instance M_bind : MBind M := λ A B f m w,
  match m w with
  | (Return a, w') => f a w'
  | (Raise e, w') => (Raise e, w')
  end.

Definition raise {A} (e : Exn) : M A := λ w, (Raise e, w).

(** [d[title] = o] on a dictionary kept in insertion order. *)
Fixpoint setitem (o : AWSObject) (d : list AWSObject) : list AWSObject :=
  match d with
  | [] => [o]
  | x :: d' => if decide (title x = title o) then o :: d' else x :: setitem o d'
  end.

(** [d.get(t)] *)
Fixpoint getitem (t : string) (d : list AWSObject) : option AWSObject :=
  match d with
  | [] => None
  | x :: d' => if decide (title x = t) then Some x else getitem t d'
  end.

(** [template.add_parameter(p)] and [template.add_resource(r)]: store the
    object under its title and hand it back. *)
Definition add_parameter (p : AWSObject) : M AWSObject := λ w,
  (Return p, mkWorld (setitem p (parameters w)) (resources w) (rendered w)).

Definition add_resource (r : AWSObject) : M AWSObject := λ w,
  (Return r, mkWorld (parameters w) (setitem r (resources w)) (rendered w)).

(** [l[i]] *)
Definition index {A} (l : list A) (i : nat) : M A :=
  match l !! i with
  | Some x => mret x
  | None => raise IndexError
  end.

(** [cfn.load_template(name, context)] *)
Definition cfn_load_template (cfg : Config) (name : string)
    (context : gmap string string) : M string := λ w,
  let w' := mkWorld (parameters w) (resources w) (rendered w ++ [(name, context)])%list in
  match load_template cfg name context with
  | Some text => (Return text, w')
  | None => (Raise (TemplateError name), w')
  end.

Section Babysitter.

(** [json.loads], [None] when the text is not JSON. *)
Variable loads : string → option Value.

Definition json_loads (text : string) : M Value :=
  match loads text with
  | Some doc => mret doc
  | None => raise (JSONDecodeError text)
  end.

Definition queue_name (cfg : Config) : string :=
  join "_" ["chef-deregistration"; CLOUDNAME cfg; CLOUDENV cfg].

Definition babysitter_role_name (cfg : Config) : string :=
  join "." ["babysitter"; CLOUDNAME cfg; CLOUDENV cfg].

Definition asg_name (cfg : Config) : string :=
  join "." ["babysitter"; CLOUDNAME cfg; CLOUDENV cfg].

Definition emit_configuration (cfg : Config) : M unit :=
  (* Parameters here *)
  babysitter_instance_class ← add_parameter
    (mkObj troposphere_Parameter "BabysitterInstanceType"
       [("Type", VStr "String"); ("Default", VStr "t2.micro");
        ("Description", VStr "Chef babysitter instance type");
        ("AllowedValues", VList (VStr <$> usable_instances cfg));
        ("ConstraintDescription", VStr "Instance size must be a valid instance type")]);
  babysitter_email_param ← add_parameter
    (mkObj troposphere_Parameter "BabysitterAlarmEmail"
       [("Default", VStr "wlee@leaf.me");
        ("Description",
         VStr "Email address to notify if tehre are issues in the babysitter queue");
        ("Type", VStr "String")]);
  (* Build an SQS queue for the babysitter *)
  let queue_name := queue_name cfg in
  queue ← add_resource
    (mkObj sqs_Queue (sanitize_id cfg queue_name)
       [("VisibilityTimeout", VInt 60);
        ("MessageRetentionPeriod", VInt 1209600);
        ("MaximumMessageSize", VInt 16384);
        ("QueueName", VStr queue_name)]);
  alert_topic ← add_resource
    (mkObj sns_Topic "BabysitterAlarmTopic"
       [("DisplayName", VStr "Babysitter Alarm");
        ("TopicName", VStr queue_name);
        ("Subscription",
         VList [VProp sns_Subscription
                  [("Endpoint", Ref babysitter_email_param);
                   ("Protocol", VStr "email")]]);
        ("DependsOn", VStr (title queue))]);
  queue_depth_alarm ← add_resource
    (mkObj cloudwatch_Alarm "BabysitterQueueDepthAlarm"
       [("AlarmDescription", VStr "Alarm if the queue depth grows beyond 200 messages");
        ("Namespace", VStr "AWS/SQS");
        ("MetricName", VStr "ApproximateNumberOfMessagesVisible");
        ("Dimensions",
         VList [VProp cloudwatch_MetricDimension
                  [("Name", VStr "QueueName");
                   ("Value", GetAtt queue "QueueName")]]);
        ("Statistic", VStr "Sum");
        ("Period", VStr "300");
        ("EvaluationPeriods", VStr "1");
        ("Threshold", VStr "200");
        ("ComparisonOperator", VStr "GreaterThanThreshold");
        ("AlarmActions", VList [Ref alert_topic]);
        ("InsufficientDataActions", VList [Ref alert_topic]);
        ("DependsOn", VStr (title alert_topic))]);
  (* babysitter IAM role *)
  let babysitter_role_name := babysitter_role_name cfg in
  babysitter_policy ← cfn_load_template cfg "babysitter_policy.json.j2"
    {[ "env" := CLOUDENV cfg; "cloud" := CLOUDNAME cfg; "region" := "us-east-1" ]}
    ≫= json_loads;
  default_policy ← cfn_load_template cfg "default_policy.json.j2"
    {[ "env" := CLOUDENV cfg; "cloud" := CLOUDNAME cfg; "region" := "us-east-1" ]}
    ≫= json_loads;
  vpc ← index (vpcs cfg) 0;
  babysitter_iam_role ← add_resource
    (mkObj iam_Role "BabysitterIamRole"
       [("AssumeRolePolicyDocument", ASSUME_ROLE_POLICY cfg);
        ("Path", VStr "/");
        ("Policies",
         VList [VProp iam_Policy
                  [("PolicyName", VStr "BabySitterPolicy");
                   ("PolicyDocument", babysitter_policy)];
                VProp iam_Policy
                  [("PolicyName", VStr "BabySitterDefaultPolicy");
                   ("PolicyDocument", default_policy)]]);
        ("DependsOn", VStr (title vpc))]);
  babysitter_instance_profile ← add_resource
    (mkObj iam_InstanceProfile "BabysitterInstanceProfile"
       [("Path", VStr "/");
        ("Roles", VList [Ref babysitter_iam_role]);
        ("DependsOn", VStr (title babysitter_iam_role))]);
  babysitter_user_data ← cfn_load_template cfg "default-init.bash.j2"
    {[ "env" := CLOUDENV cfg; "cloud" := CLOUDNAME cfg; "deploy" := "babysitter" ]};
  let ingress_rules :=
    (λ p, VProp ec2_SecurityGroupRule
            [("IpProtocol", VStr "tcp"); ("CidrIp", VStr (DEFAULT_ROUTE cfg));
             ("FromPort", VInt p); ("ToPort", VInt p)]) <$> [22%Z] in
  sg_vpc ← index (vpcs cfg) 0;
  sg_dep ← index (vpcs cfg) 0;
  security_group ← add_resource
    (mkObj ec2_SecurityGroup "BabysitterSecurityGroup"
       [("GroupDescription", VStr "Security Group for babysitter instances");
        ("VpcId", Ref sg_vpc);
        ("SecurityGroupIngress", VList ingress_rules);
        ("DependsOn", VStr (title sg_dep));
        ("Tags",
         VProp Tags
           [("Name", VStr (join "." ["babysitter-sg"; CLOUDNAME cfg; CLOUDENV cfg]))])]);
  launch_cfg ← add_resource
    (mkObj autoscaling_LaunchConfiguration "BabysitterLaunchConfiguration"
       [("ImageId", FindInMap "RegionMap" (VRef "AWS::Region") (VInt (Amis_EBS cfg)));
        ("InstanceType", Ref babysitter_instance_class);
        ("IamInstanceProfile", Ref babysitter_instance_profile);
        ("AssociatePublicIpAddress", VBool (negb (USE_PRIVATE_SUBNETS cfg)));
        ("BlockDeviceMappings",
         VList [VProp ec2_BlockDeviceMapping
                  [("DeviceName", VStr "/dev/sda1");
                   ("Ebs", VProp ec2_EBSBlockDevice
                             [("DeleteOnTermination", VBool true)])]]);
        ("KeyName", Ref (keyname cfg));
        ("SecurityGroups", VList [Ref security_group]);
        ("DependsOn",
         VList [VStr (title babysitter_instance_profile); VStr (title security_group)]);
        ("UserData", Base64 (VStr babysitter_user_data))]);
  let asg_name := asg_name cfg in
  asg_vpc ← index (vpcs cfg) 0;
  asg ← add_resource
    (mkObj autoscaling_AutoScalingGroup "BabysitterASG"
       [("AvailabilityZones", VList (get_asg_azs cfg));
        ("DesiredCapacity", VStr "1");
        ("LaunchConfigurationName", Ref launch_cfg);
        ("MinSize", VStr "1");
        ("MaxSize", VStr "1");
        ("NotificationConfiguration",
         VProp autoscaling_NotificationConfiguration
           [("TopicARN", Ref alert_topic);
            ("NotificationTypes", VList [VStr EC2_INSTANCE_TERMINATE])]);
        ("VPCZoneIdentifier",
         VList (Ref <$> get_vpc_subnets cfg asg_vpc (SubnetTypes_PLATFORM cfg)))]);
  mret tt.

(** The world [emit_configuration] leaves behind, and whether it returned. *)
Definition run (cfg : Config) (w : World) : World := (emit_configuration cfg w).2.
Definition returns (cfg : Config) (w : World) : Prop :=
  (emit_configuration cfg w).1 = Return tt.

(** The [load_template] calls made by a run, oldest first. *)
Definition calls (cfg : Config) (w : World) : list (string * gmap string string) :=
  drop (length (rendered w)) (rendered (run cfg w)).

(** A context is valid when nothing the build needs is missing: the three
    template files render, both policies are JSON, and there is a VPC. *)
Definition valid_context (cfg : Config) : Prop :=
  (∃ text,
      load_template cfg "babysitter_policy.json.j2"
        {[ "env" := CLOUDENV cfg; "cloud" := CLOUDNAME cfg; "region" := "us-east-1" ]}
      = Some text ∧ is_Some (loads text)) ∧
  (∃ text,
      load_template cfg "default_policy.json.j2"
        {[ "env" := CLOUDENV cfg; "cloud" := CLOUDNAME cfg; "region" := "us-east-1" ]}
      = Some text ∧ is_Some (loads text)) ∧
  is_Some (vpcs cfg !! 0%nat) ∧
  is_Some (load_template cfg "default-init.bash.j2"
             {[ "env" := CLOUDENV cfg; "cloud" := CLOUDNAME cfg; "deploy" := "babysitter" ]}).

End Babysitter.

(** Titles written as literals in the component, in the order of their
    [add_resource] calls; the queue's title comes before them. *)
Definition fixed_titles : list string :=
  ["BabysitterAlarmTopic"; "BabysitterQueueDepthAlarm"; "BabysitterIamRole";
   "BabysitterInstanceProfile"; "BabysitterSecurityGroup";
   "BabysitterLaunchConfiguration"; "BabysitterASG"].

Definition new_titles (cfg : Config) : list string :=
  sanitize_id cfg (queue_name cfg) :: fixed_titles.

(** The two IAM policy templates. *)
Definition policy_templates : list string :=
  ["babysitter_policy.json.j2"; "default_policy.json.j2"].


(** ** A concrete context: cloud acme, environment prod *)

Definition acme_vpc : AWSObject :=
  mkObj ec2_VPC "AcmeVpc" [("CidrBlock", VStr "10.0.0.0/16")].

Definition acme_prod : Config := {|
  CLOUDNAME := "acme";
  CLOUDENV := "prod";
  DEFAULT_ROUTE := "0.0.0.0/0";
  USE_PRIVATE_SUBNETS := false;
  ASSUME_ROLE_POLICY := VDict [("Version", VStr "2012-10-17")];
  vpcs := [acme_vpc];
  keyname := mkObj troposphere_Parameter "KeyName" [("Type", VStr "String")];
  Amis_EBS := 1;
  SubnetTypes_PLATFORM := 2;
  usable_instances := ["t2.micro"; "t2.small"];
  sanitize_id := λ _, "ChefDeregistrationAcmeProd";
  load_template := λ name _, Some name;
  get_asg_azs := [VStr "us-east-1a"; VStr "us-east-1b"];
  get_vpc_subnets := λ _ _,
    [mkObj ec2_Subnet "PlatformSubnetA" []; mkObj ec2_Subnet "PlatformSubnetB" []]
|}.

Definition globex_dev : Config := {|
  CLOUDNAME := "globex";
  CLOUDENV := "dev";
  DEFAULT_ROUTE := "10.1.0.0/16";
  USE_PRIVATE_SUBNETS := true;
  ASSUME_ROLE_POLICY := VDict [];
  vpcs := [mkObj ec2_VPC "GlobexVpc" []];
  keyname := mkObj troposphere_Parameter "KeyName" [("Type", VStr "String")];
  Amis_EBS := 0;
  SubnetTypes_PLATFORM := 1;
  usable_instances := ["t2.micro"];
  sanitize_id := λ _, "ChefDeregistrationGlobexDev";
  load_template := λ name _, Some name;
  get_asg_azs := [VStr "eu-west-1a"];
  get_vpc_subnets := λ _ _, [mkObj ec2_Subnet "PlatformSubnet" []]
|}.

(** A [json.loads] stand-in that keeps the text as a string document. *)
Definition loads_text (text : string) : option Value := Some (VStr text).

Definition empty_world : World := mkWorld [] [] [].

(** The titles an object names in its [DependsOn]: one title or a list. *)
Definition depends_on (o : AWSObject) : list string :=
  match prop "DependsOn" o with
  | Some (VStr t) => [t]
  | Some (VList vs) =>
      omap (λ v, match v with VStr t => Some t | _ => None end) vs
  | _ => []
  end.

(** The two parameters of the component. *)
Definition parameter_titles : list string :=
  ["BabysitterInstanceType"; "BabysitterAlarmEmail"].

(** The three renderings of a build, in the order they are asked for. *)
Definition renderings (cfg : Config) : list (string * gmap string string) :=
  [("babysitter_policy.json.j2",
    {[ "env" := CLOUDENV cfg; "cloud" := CLOUDNAME cfg; "region" := "us-east-1" ]});
   ("default_policy.json.j2",
    {[ "env" := CLOUDENV cfg; "cloud" := CLOUDNAME cfg; "region" := "us-east-1" ]});
   ("default-init.bash.j2",
    {[ "env" := CLOUDENV cfg; "cloud" := CLOUDNAME cfg; "deploy" := "babysitter" ]})].

(** ** Contexts in which something is missing *)

(** The acme/prod context with other VPCs and another template loader. *)
Definition acme_with (vs : list AWSObject)
    (render : string → gmap string string → option string) : Config := {|
  CLOUDNAME := CLOUDNAME acme_prod;
  CLOUDENV := CLOUDENV acme_prod;
  DEFAULT_ROUTE := DEFAULT_ROUTE acme_prod;
  USE_PRIVATE_SUBNETS := USE_PRIVATE_SUBNETS acme_prod;
  ASSUME_ROLE_POLICY := ASSUME_ROLE_POLICY acme_prod;
  vpcs := vs;
  keyname := keyname acme_prod;
  Amis_EBS := Amis_EBS acme_prod;
  SubnetTypes_PLATFORM := SubnetTypes_PLATFORM acme_prod;
  usable_instances := usable_instances acme_prod;
  sanitize_id := sanitize_id acme_prod;
  load_template := render;
  get_asg_azs := get_asg_azs acme_prod;
  get_vpc_subnets := get_vpc_subnets acme_prod
|}.


Definition acme_no_vpc : Config := acme_with [] (λ name _, Some name).


(** A template that already holds a resource and a parameter of its own. *)
Definition busy_world : World :=
  mkWorld [mkObj troposphere_Parameter "KeyName" [("Type", VStr "String")]]
          [acme_vpc] [].

Section Preconditions.

Variable loads : string → option Value.



End Preconditions.

Section Properties.

Context (loads : string → option Value).

(** *** Dictionary lemmas *)


Lemma getitem_setitem_ne t o d :
  title o ≠ t → getitem t (setitem o d) = getitem t d.
Proof.
  intros Hne. induction d as [|x d IH]; simpl.
  - by rewrite decide_False.
  - destruct (decide (title x = title o)) as [E|E]; simpl.
    + rewrite decide_False by done. by rewrite decide_False by congruence.
    + by rewrite IH.
Qed.

Lemma setitem_fresh o d :
  getitem (title o) d = None → setitem o d = (d ++ [o])%list.
Proof.
  induction d as [|x d IH]; simpl; [done|].
  destruct (decide (title x = title o)); [done|]. intros H. by rewrite IH.
Qed.

Lemma getitem_app t d d' :
  getitem t (d ++ d')%list =
  match getitem t d with Some x => Some x | None => getitem t d' end.
Proof.
  induction d as [|x d IH]; simpl; [done|].
  by destruct (decide (title x = t)).
Qed.

(** Storing objects with new, pairwise distinct titles appends them. *)
Lemma setitem_all_fresh os d :
  NoDup (title <$> os) →
  (∀ o, o ∈ os → getitem (title o) d = None) →
  foldl (λ d o, setitem o d) d os = (d ++ os)%list.
Proof.
  revert d. induction os as [|o os IH]; intros d Hnd Hfresh; simpl.
  - by rewrite app_nil_r.
  - apply NoDup_cons in Hnd as [Hnotin Hnd].
    rewrite setitem_fresh by (apply Hfresh; left).
    rewrite IH; [by rewrite <- app_assoc | done |].
    intros o' Ho'. rewrite getitem_app, Hfresh by (by right). simpl.
    rewrite decide_False; [done|].
    intros E. apply Hnotin. rewrite E. by apply list_elem_of_fmap_2.
Qed.

Ltac unfold_emit :=
  unfold calls, run, returns, emit_configuration, cfn_load_template, json_loads,
         index, add_resource, add_parameter, raise, mbind, M_bind, mret, M_ret,
         Ref, GetAtt;
  cbn -[setitem getitem queue_name].

(** One goal per path through [emit_configuration]. *)
Ltac emit_cases :=
  unfold_emit;
  repeat (match goal with
          | |- context [match load_template ?c ?n ?x with _ => _ end] =>
              destruct (load_template c n x) eqn:?
          | |- context [match ?l !! ?i with _ => _ end] =>
              destruct (l !! i) eqn:?
          | |- context [match ?f ?t with Some _ => _ | None => _ end] =>
              is_var f; destruct (f t) eqn:?
          end; cbn -[setitem getitem queue_name]).

(** The path of a valid context. *)
Ltac emit_valid H :=
  destruct H as ((? & ? & [? ?]) & (? & ? & [? ?]) & [? ?] & [? ?]);
  emit_cases; try congruence.



Lemma not_fixed_title t :
  t ∉ fixed_titles →
  t ≠ "BabysitterAlarmTopic" ∧ t ≠ "BabysitterQueueDepthAlarm" ∧
  t ≠ "BabysitterIamRole" ∧ t ≠ "BabysitterInstanceProfile" ∧
  t ≠ "BabysitterSecurityGroup" ∧ t ≠ "BabysitterLaunchConfiguration" ∧
  t ≠ "BabysitterASG".
Proof.
  unfold fixed_titles. rewrite !not_elem_of_cons. tauto.
Qed.

Lemma queue_name_format cfg :
  queue_name cfg = "chef-deregistration_" +:+ CLOUDNAME cfg +:+ "_" +:+ CLOUDENV cfg.
Proof. reflexivity. Qed.

(** *** Valid contexts are the ones the build returns on *)

Lemma returns_iff_valid cfg w :
  returns loads cfg w ↔ valid_context loads cfg.
Proof.
  split.
  - unfold valid_context. emit_cases; intros Hret; try discriminate.
    repeat split; eauto.
  - intros Hvalid. by emit_valid Hvalid.
Qed.

(** *** The resources of a build *)


(** *** Queue, topic and alarm

    These three are stored before anything can raise, so they are in the
    template after every run. *)





(** *** Resources of a valid context *)




(** *** Template renderings *)

(** Every policy template is rendered with region [us-east-1]. *)
Lemma calls_policy_region cfg w n c :
  (n, c) ∈ calls loads cfg w → n ∈ policy_templates →
  c !! "region" = Some "us-east-1".
Proof.
  unfold policy_templates.
  emit_cases; rewrite <- ?app_assoc, drop_app_length; simpl; intros Hin Hn;
    repeat (apply elem_of_cons in Hin as [Hin|Hin]; simplify_eq);
    try (by apply elem_of_nil in Hin); try (by simplify_map_eq);
    repeat (apply elem_of_cons in Hn as [Hn|Hn]; simplify_eq);
    by apply elem_of_nil in Hn.
Qed.


(** C10. Whatever the two contexts, the [region] given to a rendering of
    [babysitter_policy.json.j2] or [default_policy.json.j2] is the constant
    [us-east-1] in both. *)
Theorem policy_region_is_constant cfg1 cfg2 w1 w2 n1 c1 n2 c2 :
  (n1, c1) ∈ calls loads cfg1 w1 → n1 ∈ policy_templates →
  (n2, c2) ∈ calls loads cfg2 w2 → n2 ∈ policy_templates →
  c1 !! "region" = Some "us-east-1" ∧ c2 !! "region" = c1 !! "region".
Proof.
  intros Hc1 Hn1 Hc2 Hn2.
  rewrite (calls_policy_region _ _ _ _ Hc1 Hn1), (calls_policy_region _ _ _ _ Hc2 Hn2).
  done.
Qed.

(** ** More of the build *)

(** *** What a run leaves alone *)

(** X1. A run stores resources under its eight titles only: what the
    template holds under any other title is what it held before. *)
Theorem other_resources_untouched cfg w t :
  t ∉ new_titles cfg →
  getitem t (resources (run loads cfg w)) = getitem t (resources w).
Proof.
  unfold new_titles. intros Ht. apply not_elem_of_cons in Ht as [Hq Ht].
  apply not_fixed_title in Ht as (? & ? & ? & ? & ? & ? & ?).
  emit_cases; by repeat (rewrite getitem_setitem_ne by (simpl; congruence)).
Qed.

(** X2. A run stores parameters under [BabysitterInstanceType] and
    [BabysitterAlarmEmail] only: every other parameter is as before. *)
Theorem other_parameters_untouched cfg w t :
  t ∉ parameter_titles →
  getitem t (parameters (run loads cfg w)) = getitem t (parameters w).
Proof.
  unfold parameter_titles. rewrite !not_elem_of_cons. intros (? & ? & _).
  emit_cases; by repeat (rewrite getitem_setitem_ne by (simpl; congruence)).
Qed.

(** *** Parameters, topic and alarm *)




(** *** Role, profile, security group, launch configuration, group *)






(** *** Order of dependencies *)

(** X11. In a valid context with the eight titles free, every title a new
    resource names in its [DependsOn] is the title of a resource added
    earlier in the same run, or of the first VPC. *)
Theorem depends_on_declared_earlier cfg w :
  valid_context loads cfg →
  NoDup (new_titles cfg) →
  (∀ t, t ∈ new_titles cfg → getitem t (resources w) = None) →
  ∃ added vpc,
    resources (run loads cfg w) = (resources w ++ added)%list ∧
    vpcs cfg !! 0%nat = Some vpc ∧
    ∀ i r t, added !! i = Some r → t ∈ depends_on r →
             t ∈ title <$> take i added ∨ t = title vpc.
Proof.
  intros Hvalid Hnd Hfresh. emit_valid Hvalid. simplify_eq.
  match goal with
  | |- ∃ _ _, setitem ?o8 (setitem ?o7 (setitem ?o6 (setitem ?o5 (setitem ?o4
                (setitem ?o3 (setitem ?o2 (setitem ?o1 _))))))) = _ ∧ _ =>
      exists [o1; o2; o3; o4; o5; o6; o7; o8]; eexists;
      split; [apply (setitem_all_fresh [o1; o2; o3; o4; o5; o6; o7; o8])|]
  end.
  - exact Hnd.
  - intros o Ho. apply Hfresh. exact (list_elem_of_fmap_2 title _ _ Ho).
  - split; [reflexivity|].
    intros i r t Hi Ht.
    do 8 (destruct i as [|i];
      [simplify_eq/=; unfold depends_on in Ht; cbn in Ht;
       repeat (apply elem_of_cons in Ht as [->|Ht]);
       try (by apply elem_of_nil in Ht);
       first [by right
             | left; cbn;
               repeat first [apply list_elem_of_here | apply list_elem_of_further]]|]).
    done.
Qed.

(** *** Renderings in every run *)

(** X12. A run only adds to the record of renderings, and what it adds is
    a beginning of the sequence: babysitter policy, default policy, boot
    script.  No other template is ever asked for, and none twice. *)
Theorem rendered_log_grows cfg w :
  rendered (run loads cfg w) = (rendered w ++ calls loads cfg w)%list ∧
  calls loads cfg w `prefix_of` renderings cfg.
Proof.
  unfold renderings.
  emit_cases; rewrite <- ?app_assoc, drop_app_length; simpl;
    (split; [done|]);
    repeat first [apply prefix_cons | apply prefix_nil | reflexivity].
Qed.


(** *** Runs that fail *)





(** X18. A run in a context that is not valid raises, and stores no
    Security Group, Launch Configuration or Auto Scaling Group: the template
    holds under these titles what it held before. *)
Theorem failed_run_stops_short cfg w t :
  ¬ valid_context loads cfg →
  sanitize_id cfg (queue_name cfg) ∉ fixed_titles →
  t ∈ ["BabysitterSecurityGroup"; "BabysitterLaunchConfiguration"; "BabysitterASG"] →
  (∃ e, (emit_configuration loads cfg w).1 = Raise e) ∧
  getitem t (resources (run loads cfg w)) = getitem t (resources w).
Proof.
  intros Hinvalid Hq Ht.
  apply not_fixed_title in Hq as (? & ? & ? & ? & ? & ? & ?).
  repeat (apply elem_of_cons in Ht as [->|Ht]);
    try (by apply elem_of_nil in Ht);
    revert Hinvalid; unfold valid_context;
    emit_cases; intros Hinvalid;
    try (exfalso; apply Hinvalid; repeat split; by eauto);
    (split; [by eexists|]);
    by repeat (rewrite getitem_setitem_ne by (simpl; congruence)).
Qed.


End Properties.

(** ** The build for cloud acme, environment prod *)







Lemma policy_region_is_constant_witness :
  ({[ "env" := "prod"; "cloud" := "acme"; "region" := "us-east-1" ]}
     : gmap string string) !! "region" = Some "us-east-1" ∧
  ({[ "env" := "dev"; "cloud" := "globex"; "region" := "us-east-1" ]}
     : gmap string string) !! "region"
  = ({[ "env" := "prod"; "cloud" := "acme"; "region" := "us-east-1" ]}
       : gmap string string) !! "region".
Proof.
  apply (policy_region_is_constant loads_text acme_prod globex_dev
           empty_world empty_world
           "babysitter_policy.json.j2" _ "default_policy.json.j2" _).
  - vm_compute. apply list_elem_of_here.
  - apply (bool_decide_unpack _). vm_compute. exact I.
  - vm_compute. apply list_elem_of_further, list_elem_of_here.
  - apply (bool_decide_unpack _). vm_compute. exact I.
Defined.


(** C2 on the code, for cloud acme and environment prod: the names
    [babysitter_role_name] and [asg_name] are computed, and the string
    [babysitter.acme.prod] is written nowhere in the Role or in the Auto
    Scaling Group, whose keyword arguments are the ones listed. *)
Lemma role_and_asg_names_unused :
  babysitter_role_name acme_prod = "babysitter.acme.prod" ∧
  asg_name acme_prod = "babysitter.acme.prod" ∧
  ∃ role asg,
    getitem "BabysitterIamRole"
      (resources (run loads_text acme_prod empty_world)) = Some role ∧
    getitem "BabysitterASG"
      (resources (run loads_text acme_prod empty_world)) = Some asg ∧
    cls role = iam_Role ∧
    (kwargs role).*1 = ["AssumeRolePolicyDocument"; "Path"; "Policies"; "DependsOn"] ∧
    ("babysitter.acme.prod" ∉ object_strings role) ∧
    cls asg = autoscaling_AutoScalingGroup ∧
    (kwargs asg).*1 =
      ["AvailabilityZones"; "DesiredCapacity"; "LaunchConfigurationName"; "MinSize";
       "MaxSize"; "NotificationConfiguration"; "VPCZoneIdentifier"] ∧
    ("babysitter.acme.prod" ∉ object_strings asg).
Proof.
  do 2 (split; [reflexivity|]).
  do 2 eexists.
  split; [vm_compute; reflexivity|].
  split; [vm_compute; reflexivity|].
  repeat split; apply (bool_decide_unpack _); vm_compute; exact I.
Qed.

(** ** More builds, run *)

Lemma other_resources_untouched_witness :
  getitem "AcmeVpc" (resources (run loads_text acme_prod busy_world))
  = getitem "AcmeVpc" (resources busy_world).
Proof.
  apply (other_resources_untouched loads_text acme_prod busy_world "AcmeVpc").
  apply (bool_decide_unpack _). vm_compute. exact I.
Defined.

Lemma other_parameters_untouched_witness :
  getitem "KeyName" (parameters (run loads_text acme_prod busy_world))
  = getitem "KeyName" (parameters busy_world).
Proof.
  apply (other_parameters_untouched loads_text acme_prod busy_world "KeyName").
  apply (bool_decide_unpack _). vm_compute. exact I.
Defined.






Lemma depends_on_declared_earlier_witness :
  ∃ added vpc,
    resources (run loads_text acme_prod busy_world)
      = (resources busy_world ++ added)%list ∧
    vpcs acme_prod !! 0%nat = Some vpc ∧
    ∀ i r t, added !! i = Some r → t ∈ depends_on r →
             t ∈ title <$> take i added ∨ t = title vpc.
Proof.
  apply (depends_on_declared_earlier loads_text acme_prod busy_world).
  - repeat split; try (eexists; split; [reflexivity|]); by eexists.
  - apply (bool_decide_unpack _). vm_compute. exact I.
  - intros t Ht. apply (bool_decide_unpack _).
    repeat (apply elem_of_cons in Ht as [->|Ht]);
      [vm_compute; exact I ..|by apply elem_of_nil in Ht].
Defined.






Lemma failed_run_stops_short_witness :
  (∃ e, (emit_configuration loads_text acme_no_vpc busy_world).1 = Raise e) ∧
  getitem "BabysitterASG" (resources (run loads_text acme_no_vpc busy_world))
  = getitem "BabysitterASG" (resources busy_world).
Proof.
  apply (failed_run_stops_short loads_text acme_no_vpc busy_world "BabysitterASG").
  - intros (_ & _ & [vpc Hvpc] & _). discriminate Hvpc.
  - apply (bool_decide_unpack _). vm_compute. exact I.
  - apply (bool_decide_unpack _). vm_compute. exact I.
Defined.

